(** * Conversation state controller of the chat client (App.tsx, types.ts)

    A shallow embedding of the [App] component's state and of the
    transitions its handlers perform: [handleSend], [addMessage],
    [clearHistory], the location-banner predicate [showLocationBanner] and
    the inline handlers of the banner and settings buttons.

    React state cells ([useState], [useLocalStorage]) are fields of one
    record [AppState]; a setter is a function on that record.  The
    asynchronous [handleSend] is split at its single [await]: the part
    that runs synchronously when the handler is called, and the
    continuation that runs when the gateway promise settles.  Calls that
    are awaiting the gateway are kept in an explicit list of in-flight
    calls, and the event loop is a function [step] over events. *)

From Stdlib Require Import ZArith.
From stdpp Require Import base list strings.
Local Open Scope Z_scope.

(** ** Data model (types.ts) *)

(** [sender: 'user' | 'ai'] *)
Inductive Sender : Set := user | ai.

(** [interface Message].  [id] is a JS number that only ever holds
    [Date.now()] or [Date.now() + 1]; both are integers far below 2^53, so
    the addition is exact and [Z] represents it.  The optional fields
    [image?] and [isError?] are [None] when the property is absent or
    holds [undefined]. *)
Record Message : Set := mkMessage {
  id : Z;
  text : string;
  sender : Sender;
  timestamp : string;
  image : option string;
  isError : option bool
}.

(** [interface UserPreferences] *)
Record UserPreferences : Set := mkPrefs {
  name : string;
  communicationStyle : string
}.

(** [interface LocationData].  Coordinates are opaque to the controller:
    it only hands the record on to the gateway, so they are kept as the
    decimal text of the number. *)
Record LocationData : Set := mkLocation {
  latitude : string;
  longitude : string;
  city : option string;
  loc_error : option string
}.

(** ** JavaScript values the handlers receive *)

(** The second argument of [handleSend]: [imageBase64?: string | null]. *)
Inductive ImageArg : Set :=
| ImgUndefined
| ImgNull
| ImgString (b64 : string).

(** [imageBase64 ?? undefined]: the nullish values become [undefined],
    every string (the empty one too) is kept. *)
Definition nullish_to_undefined (a : ImageArg) : option string :=
  match a with
  | ImgUndefined => None
  | ImgNull => None
  | ImgString b64 => Some b64
  end.

(** What the [catch] clause can receive: an [Error] instance with its
    [message], or any other thrown value. *)
Inductive Thrown : Set :=
| ErrorObject (message : string)
| NotAnError.

(** How the promise returned by [getAiResponse] settles. *)
Inductive Outcome : Set :=
| Fulfilled (aiResponseText : string)
| Rejected (err : Thrown).

(** [Array.prototype.slice(-k)]: the start index is [max (length - k) 0],
    which is what truncated subtraction on [nat] computes. *)
Definition slice_from_end {A} (k : nat) (l : list A) : list A :=
  drop (length l - k)%nat l.

(** [String.prototype.includes]: some suffix of [hay] starts with
    [needle].  The needle used by the component is ASCII, for which a
    search over bytes and one over UTF-16 code units agree. *)
Fixpoint includes (needle hay : string) : bool :=
  if String.prefix needle hay then true
  else match hay with
       | EmptyString => false
       | String _ rest => includes needle rest
       end.

(** ** Component state *)

Record AppState : Set := mkApp {
  messages : list Message;                 (* useLocalStorage 'chatHistory' *)
  preferences : UserPreferences;           (* useLocalStorage 'userPrefs' *)
  isLoading : bool;
  isSettingsOpen : bool;
  error : option string;
  location : option LocationData;          (* useLocation *)
  locationError : option string;           (* useLocation *)
  isLocationBannerDismissed : bool;
  showLocationInstructions : bool
}.

(** Modelled from the spec: the [useLocalStorage] hook (hooks/useLocalStorage)
    is missing.  Its setter is used as [setMessages(prev => ...)] and
    [setMessages([])]; following the store adapter's contract, a write
    replaces the value under the key and the in-memory mirror, and an
    updater function receives the value currently held. *)
Definition setMessages (f : list Message -> list Message) (s : AppState) : AppState :=
  mkApp (f (messages s)) (preferences s) (isLoading s) (isSettingsOpen s)
        (error s) (location s) (locationError s)
        (isLocationBannerDismissed s) (showLocationInstructions s).

(** Modelled from the spec: the setter half of
    [useLocalStorage('userPrefs', ...)], handed to the settings modal as
    [onSave]. *)
Definition setPreferences (p : UserPreferences) (s : AppState) : AppState :=
  mkApp (messages s) p (isLoading s) (isSettingsOpen s)
        (error s) (location s) (locationError s)
        (isLocationBannerDismissed s) (showLocationInstructions s).

Definition setIsLoading (b : bool) (s : AppState) : AppState :=
  mkApp (messages s) (preferences s) b (isSettingsOpen s)
        (error s) (location s) (locationError s)
        (isLocationBannerDismissed s) (showLocationInstructions s).

Definition setIsSettingsOpen (b : bool) (s : AppState) : AppState :=
  mkApp (messages s) (preferences s) (isLoading s) b
        (error s) (location s) (locationError s)
        (isLocationBannerDismissed s) (showLocationInstructions s).

Definition setError (e : option string) (s : AppState) : AppState :=
  mkApp (messages s) (preferences s) (isLoading s) (isSettingsOpen s)
        e (location s) (locationError s)
        (isLocationBannerDismissed s) (showLocationInstructions s).

Definition setIsLocationBannerDismissed (b : bool) (s : AppState) : AppState :=
  mkApp (messages s) (preferences s) (isLoading s) (isSettingsOpen s)
        (error s) (location s) (locationError s)
        b (showLocationInstructions s).

Definition setShowLocationInstructions (f : bool -> bool) (s : AppState) : AppState :=
  mkApp (messages s) (preferences s) (isLoading s) (isSettingsOpen s)
        (error s) (location s) (locationError s)
        (isLocationBannerDismissed s) (f (showLocationInstructions s)).

(** Modelled from the spec: the [useLocation] hook (hooks/useLocation) is
    missing.  It owns [location] and [locationError]; when the one-shot
    position request settles the component re-renders with new values of
    both. *)
Definition locationSettled (loc : option LocationData) (err : option string)
    (s : AppState) : AppState :=
  mkApp (messages s) (preferences s) (isLoading s) (isSettingsOpen s)
        (error s) loc err
        (isLocationBannerDismissed s) (showLocationInstructions s).

(** The state of the first render: both stored values as the hook read
    them, every [useState] cell at its initial value, the position request
    not settled yet. *)
Definition mount (storedHistory : list Message) (storedPrefs : UserPreferences)
    : AppState :=
  mkApp storedHistory storedPrefs false false None None None false false.

(** The default of [useLocalStorage('userPrefs', ...)]. *)
Definition defaultPreferences : UserPreferences :=
  mkPrefs "User" "friendly and helpful".

(** ** The handlers of [App] *)

(** The two clock reads a message literal makes: [Date.now()] for the id
    and [new Date().toISOString()] for the timestamp.  They are separate
    reads, so nothing ties the one to the other. *)
Record Clock : Set := mkClock {
  now : Z;
  isoString : string
}.

(** The values of one render that its [handleSend] closes over (the
    [useCallback] dependencies that are data). *)
Record Render : Set := mkRender {
  r_messages : list Message;
  r_preferences : UserPreferences;
  r_location : option LocationData
}.

Definition render (s : AppState) : Render :=
  mkRender (messages s) (preferences s) (location s).

(** The arguments of one [getAiResponse] call; the call itself is the
    remote service's business. *)
Record GatewayCall : Set := mkCall {
  g_text : string;
  g_imageBase64 : ImageArg;
  g_recentHistory : list Message;
  g_preferences : UserPreferences;
  g_location : option LocationData
}.

(** [addMessage]: [setMessages(prev => [...prev, message])]. *)
Definition addMessage (message : Message) : AppState -> AppState :=
  setMessages (fun prev => prev ++ [message]).

(** [handleSend], up to the [await]: the state after the three setter
    calls, and the gateway call that was issued.  [messages],
    [preferences] and [location] in the body are the render's. *)
Definition handleSend_call (r : Render) (text : string) (imageBase64 : ImageArg)
    (c : Clock) (s : AppState) : AppState * GatewayCall :=
  let s := setError None s in
  let userMessage :=
    mkMessage (now c) text user (isoString c)
              (nullish_to_undefined imageBase64) None in
  let s := addMessage userMessage s in
  let s := setIsLoading true s in
  let recentHistory := slice_from_end 5 (r_messages r) in
  (s, mkCall text imageBase64 recentHistory (r_preferences r) (r_location r)).

(** [err instanceof Error ? err.message : 'An unknown error occurred.'] *)
Definition errorMessageOf (err : Thrown) : string :=
  match err with
  | ErrorObject message => message
  | NotAnError => "An unknown error occurred."
  end.

(** [handleSend], from the point where the awaited promise settles: the
    rest of the [try] block or the [catch] block, then [finally]. *)
Definition handleSend_settled (o : Outcome) (c : Clock) (s : AppState) : AppState :=
  let s :=
    match o with
    | Fulfilled aiResponseText =>
        let aiMessage :=
          mkMessage (now c + 1) aiResponseText ai (isoString c) None None in
        addMessage aiMessage s
    | Rejected err =>
        let errorMessage := errorMessageOf err in
        let s := setError (Some ("Failed to get response from AI: " +:+ errorMessage)) s in
        let errorMsg :=
          mkMessage (now c + 1)
                    ("Sorry, I encountered an error. Please try again. ("
                       +:+ errorMessage +:+ ")")
                    ai (isoString c) None (Some true) in
        addMessage errorMsg s
    end in
  setIsLoading false s.

(** [clearHistory]: [setMessages([])]. *)
Definition clearHistory : AppState -> AppState :=
  setMessages (fun _ => []).

(** [locationError?.includes('denied')]: [undefined] ([None]) when
    [locationError] is null. *)
Definition optional_includes (needle : string) (s : option string) : option bool :=
  match s with
  | None => None
  | Some str => Some (includes needle str)
  end.

(** [a && b] where [a] is a boolean or [undefined]: a falsy [a] is the
    result, otherwise [b]. *)
Definition js_and (a : option bool) (b : bool) : option bool :=
  match a with
  | Some true => Some b
  | Some false => Some false
  | None => None
  end.

(** Truthiness, as [{showLocationBanner && (...)}] tests it. *)
Definition truthy (v : option bool) : bool :=
  match v with
  | Some b => b
  | None => false
  end.

(** [const showLocationBanner =
       locationError?.includes('denied') && !isLocationBannerDismissed] *)
Definition showLocationBanner (s : AppState) : option bool :=
  js_and (optional_includes "denied" (locationError s))
         (negb (isLocationBannerDismissed s)).

(** The banner's [<div>] is rendered. *)
Definition bannerVisible (s : AppState) : bool :=
  truthy (showLocationBanner s).

(** ** The component in its event loop *)

(** The component's state together with the [handleSend] calls that are
    suspended at their [await], oldest first. *)
Record System : Set := mkSystem {
  appState : AppState;
  inFlight : list GatewayCall
}.

Inductive Event : Set :=
| Send (text : string) (imageBase64 : ImageArg) (c : Clock)
    (* ChatInput calls onSend *)
| Settled (i : nat) (o : Outcome) (c : Clock)
    (* the promise of the i-th in-flight call settles *)
| ClearHistory                              (* Header onClearHistory *)
| OpenSettings                              (* Header onToggleSettings *)
| CloseSettings                             (* SettingsModal onClose *)
| SavePreferences (p : UserPreferences)     (* SettingsModal onSave *)
| ToggleInstructions                        (* banner button, line 97 *)
| DismissBanner                             (* banner button, line 102 *)
| LocationSettled (loc : option LocationData) (err : option string).

(** One event.  An event handler runs against the latest render, so the
    [handleSend] that [Send] calls closes over [render (appState sys)].  A
    [Settled] for an index with no in-flight call does nothing. *)
Definition step (sys : System) (e : Event) : System :=
  match e with
  | Send text imageBase64 c =>
      let '(s, call) := handleSend_call (render (appState sys)) text imageBase64 c (appState sys) in
      mkSystem s (inFlight sys ++ [call])
  | Settled i o c =>
      match inFlight sys !! i with
      | Some _ => mkSystem (handleSend_settled o c (appState sys)) (delete i (inFlight sys))
      | None => sys
      end
  | ClearHistory => mkSystem (clearHistory (appState sys)) (inFlight sys)
  | OpenSettings => mkSystem (setIsSettingsOpen true (appState sys)) (inFlight sys)
  | CloseSettings => mkSystem (setIsSettingsOpen false (appState sys)) (inFlight sys)
  | SavePreferences p => mkSystem (setPreferences p (appState sys)) (inFlight sys)
  | ToggleInstructions =>
      mkSystem (setShowLocationInstructions negb (appState sys)) (inFlight sys)
  | DismissBanner =>
      mkSystem (setIsLocationBannerDismissed true (appState sys)) (inFlight sys)
  | LocationSettled loc err => mkSystem (locationSettled loc err (appState sys)) (inFlight sys)
  end.

Definition run (sys : System) (evs : list Event) : System :=
  foldl step sys evs.

(** The component right after mounting: nothing in flight. *)
Definition boot (storedHistory : list Message) (storedPrefs : UserPreferences)
    : System :=
  mkSystem (mount storedHistory storedPrefs) [].

(** [ChatInput] receives [isLoading]; this is the discipline that prop
    makes possible: [onSend] is only called while [isLoading] is false. *)
Fixpoint sendsOnlyWhenIdle (sys : System) (evs : list Event) : bool :=
  match evs with
  | [] => true
  | e :: rest =>
      match e with
      | Send _ _ _ => negb (isLoading (appState sys))
      | _ => true
      end && sendsOnlyWhenIdle (step sys e) rest
  end.

(** One complete turn: a send, and the clock and outcome with which its
    gateway call later settles. *)
Record Turn : Set := mkTurn {
  t_text : string;
  t_image : ImageArg;
  t_sent : Clock;
  t_outcome : Outcome;
  t_settled : Clock
}.

(** Sends issued strictly one after the other: each call's promise
    settles before the next call is made. *)
Definition turnEvents (t : Turn) : list Event :=
  [Send (t_text t) (t_image t) (t_sent t); Settled 0 (t_outcome t) (t_settled t)].

Definition sequentialSends (turns : list Turn) : list Event :=
  concat (map turnEvents turns).

(** The message literals of [handleSend], for reference in statements. *)
Definition userMessageOf (t : Turn) : Message :=
  mkMessage (now (t_sent t)) (t_text t) user (isoString (t_sent t))
            (nullish_to_undefined (t_image t)) None.

Definition replyMessageOf (t : Turn) : Message :=
  match t_outcome t with
  | Fulfilled aiResponseText =>
      mkMessage (now (t_settled t) + 1) aiResponseText ai (isoString (t_settled t))
                None None
  | Rejected err =>
      mkMessage (now (t_settled t) + 1)
                ("Sorry, I encountered an error. Please try again. ("
                   +:+ errorMessageOf err +:+ ")")
                ai (isoString (t_settled t)) None (Some true)
  end.

(** [hay] contains [needle] as a substring. *)
Definition containsSubstring (needle hay : string) : Prop :=
  exists before after, hay = before +:+ needle +:+ after.

(** ** Predicates used in the statements *)

(** The two messages a turn appends. *)
Definition turnMessages (t : Turn) : list Message :=
  [userMessageOf t; replyMessageOf t].

(** The loading flag counts the calls in flight. *)
Definition loadingTracksInFlight (sys : System) : Prop :=
  length (inFlight sys) = if isLoading (appState sys) then 1%nat else 0%nat.

(** No two positions of the list hold the same id. *)
Definition uniqueIds (l : list Message) : Prop := NoDup (id <$> l).

(** An ai message has no image. *)
Definition aiWithoutImage (m : Message) : Prop :=
  sender m = ai -> image m = None.

(** ** What [App] renders (the JSX of lines 79 to 137) *)

(** Truthiness of a [string | null]: null and the empty string are
    falsy, every other string is truthy. *)
Definition truthy_string (v : option string) : bool :=
  match v with
  | Some (String _ _) => true
  | Some EmptyString => false
  | None => false
  end.

(** [{error && <div ...>{error}</div>}] (line 123): the error notice
    above the input is rendered. *)
Definition errorNoticeShown (s : AppState) : bool :=
  truthy_string (error s).

(** [{locationError && !locationError.includes('denied') && (<div>...)}]
    (lines 124 to 126): the inline location notice is rendered. *)
Definition locationNoticeShown (s : AppState) : bool :=
  match locationError s with
  | Some e => truthy_string (Some e) && negb (includes "denied" e)
  | None => false
  end.

(** [{showLocationInstructions && (<div>...)}] (line 105), which sits
    inside the banner's [<div>] (line 88): the instructions are
    rendered. *)
Definition instructionsShown (s : AppState) : bool :=
  bannerVisible s && showLocationInstructions s.

(** [{showLocationInstructions ? 'Hide Instructions' : 'How to Enable'}]
    (line 100) *)
Definition instructionsButtonLabel (s : AppState) : string :=
  if showLocationInstructions s then "Hide Instructions" else "How to Enable".

(** ** Measures of event lists and message lists *)

Definition isSend (e : Event) : bool :=
  match e with Send _ _ _ => true | _ => false end.

Definition isClearHistory (e : Event) : bool :=
  match e with ClearHistory => true | _ => false end.

Definition isToggleInstructions (e : Event) : bool :=
  match e with ToggleInstructions => true | _ => false end.

Definition isOpenSettings (e : Event) : bool :=
  match e with OpenSettings => true | _ => false end.

Definition isCloseSettings (e : Event) : bool :=
  match e with CloseSettings => true | _ => false end.

Definition isSettled (e : Event) : bool :=
  match e with Settled _ _ _ => true | _ => false end.

Fixpoint countEvents (p : Event -> bool) (evs : list Event) : nat :=
  match evs with
  | [] => 0
  | e :: rest => (if p e then 1 else 0) + countEvents p rest
  end.

(** No event of the list is a press on the clear button. *)
Definition clearFree (evs : list Event) : bool :=
  forallb (fun e => negb (isClearHistory e)) evs.

Fixpoint countFrom (who : Sender) (l : list Message) : nat :=
  match l with
  | [] => 0
  | m :: rest =>
      (match sender m, who with
       | user, user => 1
       | ai, ai => 1
       | _, _ => 0
       end) + countFrom who rest
  end.

(** The clocks of sequential turns advance: every turn is sent after
    [lo], does not settle before it was sent, and the next turn is sent
    more than one millisecond after this one settled. *)
Fixpoint clocksAdvance (lo : Z) (turns : list Turn) : bool :=
  match turns with
  | [] => true
  | t :: rest =>
      (lo <? now (t_sent t)) && (now (t_sent t) <=? now (t_settled t))
      && clocksAdvance (now (t_settled t) + 1) rest
  end.

(** The error field is null or a notice built by [handleSend]'s [catch]
    block. *)
Definition errorIsNotice (s : AppState) : Prop :=
  error s = None \/
  exists errorMessage, error s = Some ("Failed to get response from AI: " +:+ errorMessage).

(** Replies follow sends: every initial segment of the list holds at
    least as many user messages as ai messages. *)
Definition repliesFollowSends (l : list Message) : Prop :=
  forall k, (countFrom ai (take k l) <= countFrom user (take k l))%nat.

(** Every user message still awaiting its reply has a call in flight. *)
Definition repliesAccounted (sys : System) : Prop :=
  repliesFollowSends (messages (appState sys)) /\
  countFrom user (messages (appState sys)) =
    (countFrom ai (messages (appState sys)) + length (inFlight sys))%nat.

(** A message without error flag, or an error reply as [handleSend]'s
    [catch] block builds it. *)
Definition errorFlagIsReply (m : Message) : Prop :=
  isError m = None \/
  (isError m = Some true /\ sender m = ai /\
   exists errorMessage,
     text m = "Sorry, I encountered an error. Please try again. ("
                +:+ errorMessage +:+ ")").

(** ** Sample inputs *)

Definition clockAt (ms : Z) (iso : string) : Clock := mkClock ms iso.

Definition helloTurn : Turn :=
  mkTurn "hello" ImgNull
         (clockAt 1762153200000 "2025-11-03T07:00:00.000Z")
         (Rejected (ErrorObject "Network request failed"))
         (clockAt 1762153200250 "2025-11-03T07:00:00.250Z").

Definition photoTurn : Turn :=
  mkTurn "what is on this picture?" (ImgString "iVBORw0KGgo=")
         (clockAt 1762153260000 "2025-11-03T07:01:00.000Z")
         (Fulfilled "A lighthouse at dusk.")
         (clockAt 1762153261500 "2025-11-03T07:01:01.500Z").

Definition storedMessage (n : Z) (who : Sender) : Message :=
  mkMessage n "earlier" who "2025-11-02T18:00:00.000Z" None None.

(** Seven stored messages, ids 1 to 7. *)
Definition sevenStored : list Message :=
  [storedMessage 1 user; storedMessage 2 ai; storedMessage 3 user;
   storedMessage 4 ai; storedMessage 5 user; storedMessage 6 ai;
   storedMessage 7 user].

Definition firstSend : Event :=
  Send "first" ImgNull (clockAt 1762153200000 "2025-11-03T07:00:00.000Z").

Definition secondSend : Event :=
  Send "second" ImgNull (clockAt 1762153200400 "2025-11-03T07:00:00.400Z").

(** A reply that settles at millisecond 1762153200250 and a next send made
    one millisecond later. *)
Definition promptFollowUp : list Turn :=
  [helloTurn;
   mkTurn "hello again" ImgNull
          (clockAt 1762153200251 "2025-11-03T07:00:00.251Z")
          (Fulfilled "Hello!")
          (clockAt 1762153200900 "2025-11-03T07:00:00.900Z")].

Definition quickTurn (txt : string) (sent : Z) (reply : string) (settled : Z) : Turn :=
  mkTurn txt ImgNull (clockAt sent "2025-11-03T07:10:00.000Z")
         (Fulfilled reply) (clockAt settled "2025-11-03T07:10:01.000Z").

Definition threeTurns : list Turn :=
  [quickTurn "one" 1762153800000 "1" 1762153800500;
   quickTurn "two" 1762153805000 "2" 1762153805500;
   quickTurn "three" 1762153810000 "3" 1762153810500].

Definition lateSettle : Event :=
  Settled 0 (Fulfilled "late reply") (clockAt 1762153200900 "2025-11-03T07:00:00.900Z").

(** * Properties *)

(** ** Strings and slices *)

Lemma prefix_true_iff (p s : string) :
  String.prefix p s = true <-> exists rest, s = p +:+ rest.
Proof.
  revert s. induction p as [|a p IH]; intros s.
  - split; [intros _; by exists s | by destruct s].
  - destruct s as [|b s]; simpl.
    + split; [done | intros [rest Hrest]; discriminate Hrest].
    + destruct (Ascii.ascii_dec a b) as [->|Hne].
      * rewrite IH. split; intros [rest Hrest]; exists rest.
        -- by rewrite Hrest.
        -- by injection Hrest.
      * split; [done | intros [rest Hrest]; injection Hrest; congruence].
Qed.

Lemma includes_unfold (needle hay : string) :
  includes needle hay =
  if String.prefix needle hay then true
  else match hay with
       | EmptyString => false
       | String _ rest => includes needle rest
       end.
Proof. by destruct hay. Qed.

(** [includes] decides substring containment. *)
Lemma includes_true_iff (needle hay : string) :
  includes needle hay = true <-> containsSubstring needle hay.
Proof.
  unfold containsSubstring. split.
  - induction hay as [|a hay IH]; rewrite includes_unfold;
      destruct (String.prefix needle _) eqn:Hp.
    + intros _. apply prefix_true_iff in Hp as [rest ->]. by exists "", rest.
    + done.
    + intros _. apply prefix_true_iff in Hp as [rest ->]. by exists "", rest.
    + intros H. destruct (IH H) as (before & after & ->).
      by exists (String a before), after.
  - intros (before & after & ->).
    induction before as [|a before IH].
    + rewrite includes_unfold.
      replace (String.prefix needle _) with true; [done|].
      symmetry. apply prefix_true_iff. by exists after.
    + change (String a before +:+ needle +:+ after)
        with (String a (before +:+ needle +:+ after)).
      rewrite includes_unfold, IH. by case_match.
Qed.

Lemma slice_from_end_suffix {A} (k : nat) (l : list A) :
  exists older, l = older ++ slice_from_end k l.
Proof.
  exists (take (length l - k) l). unfold slice_from_end.
  by rewrite take_drop.
Qed.

Lemma slice_from_end_length {A} (k : nat) (l : list A) :
  length (slice_from_end k l) = (k `min` length l)%nat.
Proof. unfold slice_from_end. rewrite length_drop. lia. Qed.

(** ** Frame facts of the handlers *)

Lemma handleSend_call_state (r : Render) text img c (s : AppState) :
  fst (handleSend_call r text img c s) =
  mkApp (messages s ++
           [mkMessage (now c) text user (isoString c) (nullish_to_undefined img) None])
        (preferences s) true (isSettingsOpen s) None (location s)
        (locationError s) (isLocationBannerDismissed s)
        (showLocationInstructions s).
Proof. reflexivity. Qed.

Lemma handleSend_settled_messages (o : Outcome) (c : Clock) (s : AppState) :
  messages (handleSend_settled o c s) =
  messages s ++
    [match o with
     | Fulfilled aiResponseText =>
         mkMessage (now c + 1) aiResponseText ai (isoString c) None None
     | Rejected err =>
         mkMessage (now c + 1)
                   ("Sorry, I encountered an error. Please try again. ("
                      +:+ errorMessageOf err +:+ ")")
                   ai (isoString c) None (Some true)
     end].
Proof. by destruct o. Qed.

Lemma run_app (sys : System) (evs1 evs2 : list Event) :
  run sys (evs1 ++ evs2) = run (run sys evs1) evs2.
Proof. apply foldl_app. Qed.

(** ** The context slice *)

Example slice_of_seven_keeps_five :
  id <$> slice_from_end 5 sevenStored = [3; 4; 5; 6; 7].
Proof. reflexivity. Qed.

Example slice_of_short_history_is_the_history :
  slice_from_end 5 (take 2 sevenStored) = take 2 sevenStored.
Proof. reflexivity. Qed.

(** The spec's scenario [("hello", null, [], prefs, null)]: on an empty
    history the gateway receives an empty slice, although the list
    already holds the new user message when the call is made. *)
Example first_send_has_empty_context :
  let sys := step (boot [] defaultPreferences)
                  (Send (t_text helloTurn) (t_image helloTurn) (t_sent helloTurn)) in
  inFlight sys = [mkCall "hello" ImgNull [] defaultPreferences None] /\
  messages (appState sys) = [userMessageOf helloTurn].
Proof. split; reflexivity. Qed.

(** C3. The [recentHistory] handed to the gateway by a send is the last
    five messages of the list as it was before the call: it is
    [slice(-5)] of that list, hence a suffix of it of length
    [min 5 (length)], and the user message this call appends comes after
    the slice in the updated list, not inside it. *)
Theorem recentHistory_is_pre_append_slice
    (sys : System) (text : string) (imageBase64 : ImageArg) (c : Clock) :
  let before := messages (appState sys) in
  let sys' := step sys (Send text imageBase64 c) in
  let userMessage :=
    mkMessage (now c) text user (isoString c) (nullish_to_undefined imageBase64) None in
  exists call older,
    inFlight sys' = inFlight sys ++ [call] /\
    g_text call = text /\ g_imageBase64 call = imageBase64 /\
    g_recentHistory call = slice_from_end 5 before /\
    length (g_recentHistory call) = (5 `min` length before)%nat /\
    before = older ++ g_recentHistory call /\
    messages (appState sys') = older ++ g_recentHistory call ++ [userMessage].
Proof.
  intros before sys' userMessage.
  destruct (slice_from_end_suffix 5 before) as [older Holder].
  exists (mkCall text imageBase64 (slice_from_end 5 before)
                 (preferences (appState sys)) (location (appState sys))), older.
  repeat split; try done.
  - apply slice_from_end_length.
  - subst sys'. cbn. fold before. rewrite Holder at 1. by rewrite <- app_assoc.
Qed.

(** ** Failure and success paths *)

(** C4. When the gateway call fails with an [Error] whose message is
    [msg], the continuation appends one ai message flagged [isError] whose
    text is "Sorry, I encountered an error. Please try again. (msg)", and
    the error field becomes "Failed to get response from AI: msg". *)
Theorem gateway_failure_is_reported (msg : string) (c : Clock) (s : AppState) :
  let s' := handleSend_settled (Rejected (ErrorObject msg)) c s in
  (exists m,
      messages s' = messages s ++ [m] /\
      sender m = ai /\
      isError m = Some true /\
      text m = "Sorry, I encountered an error. Please try again. (" +:+ msg +:+ ")") /\
  error s' = Some ("Failed to get response from AI: " +:+ msg).
Proof.
  cbn. split; [|done]. eexists. split; [reflexivity|]. by cbn.
Qed.

Example hello_failure_scenario :
  let sys := run (boot [] defaultPreferences) (turnEvents helloTurn) in
  messages (appState sys) =
    [mkMessage 1762153200000 "hello" user "2025-11-03T07:00:00.000Z" None None;
     mkMessage 1762153200251
       "Sorry, I encountered an error. Please try again. (Network request failed)"
       ai "2025-11-03T07:00:00.250Z" None (Some true)] /\
  error (appState sys) = Some "Failed to get response from AI: Network request failed" /\
  isLoading (appState sys) = false /\
  inFlight sys = [].
Proof. repeat split. Qed.

(** A thrown value that is not an [Error] is reported with the fixed
    text. *)
Example non_error_rejection_text (c : Clock) (s : AppState) :
  error (handleSend_settled (Rejected NotAnError) c s) =
  Some "Failed to get response from AI: An unknown error occurred.".
Proof. reflexivity. Qed.

(** C8. A send starts by setting the error field to null (and raising the
    loading flag); whichever way the gateway call settles, the
    continuation leaves the loading flag false, so a complete turn always
    ends idle. *)
Theorem send_clears_error_and_ends_idle :
  (forall r text imageBase64 c s,
      error (fst (handleSend_call r text imageBase64 c s)) = None /\
      isLoading (fst (handleSend_call r text imageBase64 c s)) = true) /\
  (forall o c s, isLoading (handleSend_settled o c s) = false) /\
  (forall sys t, isLoading (appState (run sys (turnEvents t))) = false).
Proof.
  split; [done|]. split.
  - by intros [?|?] c s.
  - intros [s fl] [tx im c1 o c2]. cbn.
    destruct fl as [|call fl]; cbn; by destruct o.
Qed.

(** ** Clearing the history *)

(** C7. [clearHistory] leaves an empty message list whatever the list
    held and whether or not a send is in flight, and changes neither the
    preferences nor the location state. *)
Theorem clearHistory_empties_only_the_messages (s : AppState) :
  messages (clearHistory s) = [] /\
  preferences (clearHistory s) = preferences s /\
  location (clearHistory s) = location s /\
  locationError (clearHistory s) = locationError s /\
  isLocationBannerDismissed (clearHistory s) = isLocationBannerDismissed s /\
  showLocationInstructions (clearHistory s) = showLocationInstructions s /\
  isLoading (clearHistory s) = isLoading s.
Proof. repeat split. Qed.

(** C9. [clearHistory] does not touch the error field: a notice left by a
    failed send is still there after the history is cleared, and it is the
    next send that removes it. *)
Theorem clearHistory_keeps_the_error (s : AppState) :
  error (clearHistory s) = error s /\
  (forall e, error s = Some e -> error (clearHistory s) = Some e) /\
  (forall r text imageBase64 c,
      error (fst (handleSend_call r text imageBase64 c (clearHistory s))) = None).
Proof. repeat split; done. Qed.

Lemma clearHistory_keeps_the_error_witness :
  error (run (boot [] defaultPreferences) (turnEvents helloTurn)).(appState)
    = Some "Failed to get response from AI: Network request failed" /\
  error (clearHistory (run (boot [] defaultPreferences) (turnEvents helloTurn)).(appState))
    = Some "Failed to get response from AI: Network request failed".
Proof.
  split; [reflexivity|].
  apply (proj1 (proj2 (clearHistory_keeps_the_error
           (run (boot [] defaultPreferences) (turnEvents helloTurn)).(appState)))).
  reflexivity.
Defined.

(** ** Sends one after the other *)

Lemma turn_from_idle (sys : System) (t : Turn) :
  inFlight sys = [] ->
  inFlight (run sys (turnEvents t)) = [] /\
  messages (appState (run sys (turnEvents t))) = messages (appState sys) ++ turnMessages t.
Proof.
  destruct sys as [s fl], t as [tx im c1 o c2]. cbn. intros ->. cbn.
  split; [done|]. by destruct o; cbn; rewrite <- app_assoc.
Qed.

Lemma sequential_sends_append (turns : list Turn) (sys : System) :
  inFlight sys = [] ->
  inFlight (run sys (sequentialSends turns)) = [] /\
  messages (appState (run sys (sequentialSends turns))) =
    messages (appState sys) ++ concat (map turnMessages turns).
Proof.
  revert sys. induction turns as [|t turns IH]; intros sys Hidle.
  - cbn. by rewrite app_nil_r.
  - unfold sequentialSends. cbn [map concat]. rewrite run_app.
    destruct (turn_from_idle sys t Hidle) as [Hfl Hmsgs].
    destruct (IH _ Hfl) as [Hfl' Hmsgs'].
    split; [done|].
    unfold sequentialSends in Hmsgs'. rewrite Hmsgs', Hmsgs.
    by rewrite <- app_assoc.
Qed.

Lemma turnMessages_lookup (turns : list Turn) (i : nat) (t : Turn) :
  turns !! i = Some t ->
  concat (map turnMessages turns) !! (2 * i)%nat = Some (userMessageOf t) /\
  concat (map turnMessages turns) !! (2 * i + 1)%nat = Some (replyMessageOf t).
Proof.
  revert i. induction turns as [|t' turns IH]; intros i Hi; [done|].
  destruct i as [|i].
  - cbn in Hi. by injection Hi as ->.
  - cbn in Hi. destruct (IH i Hi) as [Hu Hr].
    replace (2 * S i)%nat with (S (S (2 * i))) by lia.
    replace (S (S (2 * i)) + 1)%nat with (S (S (2 * i + 1))) by lia.
    by cbn.
Qed.

Lemma turnMessages_length (turns : list Turn) :
  length (concat (map turnMessages turns)) = (2 * length turns)%nat.
Proof. induction turns as [|t turns IH]; cbn; [done | lia]. Qed.

(** C2. Starting with an empty list and nothing in flight, N sends each
    issued after the previous one settled leave exactly 2N messages: for
    the i-th send, position 2i holds its user message and position 2i+1
    the ai message of its outcome (error-flagged exactly when the call was
    rejected). *)
Theorem sequential_sends_give_2N_messages (sys : System) (turns : list Turn) :
  inFlight sys = [] ->
  messages (appState sys) = [] ->
  let final := messages (appState (run sys (sequentialSends turns))) in
  final = concat (map turnMessages turns) /\
  length final = (2 * length turns)%nat /\
  forall i t, turns !! i = Some t ->
    exists u a,
      final !! (2 * i)%nat = Some u /\ final !! (2 * i + 1)%nat = Some a /\
      sender u = user /\ text u = t_text t /\
      sender a = ai /\
      (isError a = Some true <-> exists err, t_outcome t = Rejected err).
Proof.
  intros Hidle Hempty final.
  assert (Hfinal : final = concat (map turnMessages turns)).
  { subst final. destruct (sequential_sends_append turns sys Hidle) as [_ ->].
    by rewrite Hempty. }
  split; [done|]. split.
  - rewrite Hfinal. apply turnMessages_length.
  - intros i t Hi. rewrite Hfinal.
    destruct (turnMessages_lookup turns i t Hi) as [Hu Hr].
    exists (userMessageOf t), (replyMessageOf t).
    repeat split; try done.
    + by unfold replyMessageOf; destruct (t_outcome t).
    + unfold replyMessageOf. destruct (t_outcome t); cbn; [done | by eexists].
    + intros [err Herr]. unfold replyMessageOf. by rewrite Herr.
Qed.

Lemma sequential_sends_give_2N_messages_witness :
  inFlight (boot [] defaultPreferences) = [] /\
  messages (appState (boot [] defaultPreferences)) = [] /\
  length (messages (appState (run (boot [] defaultPreferences)
                             (sequentialSends [helloTurn; photoTurn])))) = 4%nat.
Proof.
  split; [reflexivity|]. split; [reflexivity|].
  apply (sequential_sends_give_2N_messages
           (boot [] defaultPreferences) [helloTurn; photoTurn]); reflexivity.
Defined.

(** With a stored history the same 2N messages follow the stored ones. *)
Example sends_after_stored_history :
  length (messages (appState (run (boot sevenStored defaultPreferences)
                             (sequentialSends [helloTurn; photoTurn])))) = 11%nat.
Proof. reflexivity. Qed.

(** ** One call in flight *)

Lemma sendsOnlyWhenIdle_app (evs1 evs2 : list Event) (sys : System) :
  sendsOnlyWhenIdle sys (evs1 ++ evs2) =
  sendsOnlyWhenIdle sys evs1 && sendsOnlyWhenIdle (run sys evs1) evs2.
Proof.
  revert sys. induction evs1 as [|e evs1 IH]; intros sys; [done|].
  cbn [List.app sendsOnlyWhenIdle run foldl]. rewrite IH.
  by rewrite andb_assoc.
Qed.

Lemma step_keeps_tracking (sys : System) (e : Event) :
  loadingTracksInFlight sys ->
  sendsOnlyWhenIdle sys [e] = true ->
  loadingTracksInFlight (step sys e).
Proof.
  unfold loadingTracksInFlight. destruct sys as [s fl]. cbn.
  destruct e as [tx im c|i o c| | | |p| | |loc err]; cbn;
    rewrite ?andb_true_r; try done.
  - intros Hlen Hidle. apply negb_true_iff in Hidle. rewrite Hidle in Hlen.
    rewrite length_app. cbn. lia.
  - intros Hlen _. destruct (fl !! i) as [call|] eqn:Hi; cbn; [|done].
    apply lookup_lt_Some in Hi. rewrite length_delete by (apply lookup_lt_is_Some_2; lia).
    destruct o; cbn; destruct (isLoading s); lia.
Qed.

Lemma run_keeps_tracking (evs : list Event) (sys : System) :
  loadingTracksInFlight sys ->
  sendsOnlyWhenIdle sys evs = true ->
  loadingTracksInFlight (run sys evs).
Proof.
  revert sys. induction evs as [|e evs IH]; intros sys Htrack Hgated; [done|].
  change (e :: evs) with ([e] ++ evs) in Hgated.
  rewrite sendsOnlyWhenIdle_app in Hgated. apply andb_true_iff in Hgated as [He Hrest].
  cbn in Hrest. cbn [run foldl]. apply IH; [|done].
  by apply step_keeps_tracking.
Qed.

(** [handleSend] called while the first call is still awaiting the
    gateway: the loading flag is set, yet the second call appends its user
    message and issues a gateway call of its own.  Both calls took their
    context from the list as it was when they were made. *)
Lemma send_while_loading_reaches_the_gateway :
  isLoading (appState (step (boot [] defaultPreferences) firstSend)) = true /\
  inFlight (run (boot [] defaultPreferences) [firstSend; secondSend]) =
    [mkCall "first" ImgNull [] defaultPreferences None;
     mkCall "second" ImgNull
            [mkMessage 1762153200000 "first" user "2025-11-03T07:00:00.000Z" None None]
            defaultPreferences None] /\
  ~ (length (inFlight (run (boot [] defaultPreferences) [firstSend; secondSend])) <= 1)%nat /\
  step (step (boot [] defaultPreferences) firstSend) secondSend
    <> step (boot [] defaultPreferences) firstSend.
Proof.
  split; [reflexivity|]. split; [reflexivity|]. split.
  - cbn. lia.
  - intros H. apply (f_equal (fun sys => length (inFlight sys))) in H.
    cbn in H. lia.
Qed.

(** C1. [handleSend] has no guard of its own: every call, idle
    or not, adds a gateway call to those in flight.  What the controller
    provides is the [isLoading] flag it hands to [ChatInput]; if [onSend]
    is only called while that flag is false, then from mounting on there
    is at most one gateway call in flight at every point of the
    execution. *)
Theorem one_call_in_flight_if_sends_wait_for_idle :
  (forall sys text imageBase64 c,
      length (inFlight (step sys (Send text imageBase64 c))) =
      S (length (inFlight sys))) /\
  (forall storedHistory storedPrefs evs later,
      sendsOnlyWhenIdle (boot storedHistory storedPrefs) (evs ++ later) = true ->
      (length (inFlight (run (boot storedHistory storedPrefs) evs)) <= 1)%nat).
Proof.
  split.
  - intros [s fl] tx im c. cbn. rewrite length_app. cbn. lia.
  - intros hist prefs evs later Hgated.
    rewrite sendsOnlyWhenIdle_app in Hgated. apply andb_true_iff in Hgated as [Hgated _].
    assert (Htrack : loadingTracksInFlight (run (boot hist prefs) evs))
      by (by apply run_keeps_tracking).
    unfold loadingTracksInFlight in Htrack. rewrite Htrack. case_match; lia.
Qed.

Lemma one_call_in_flight_if_sends_wait_for_idle_witness :
  sendsOnlyWhenIdle (boot [] defaultPreferences)
    ([firstSend; Settled 0 (Fulfilled "hi") (clockAt 1762153200300 "2025-11-03T07:00:00.300Z");
      secondSend] ++ [ClearHistory]) = true /\
  (length (inFlight (run (boot [] defaultPreferences)
     [firstSend; Settled 0 (Fulfilled "hi") (clockAt 1762153200300 "2025-11-03T07:00:00.300Z");
      secondSend])) <= 1)%nat.
Proof.
  split; [reflexivity|].
  apply (proj2 one_call_in_flight_if_sends_wait_for_idle
           [] defaultPreferences _ [ClearHistory]).
  reflexivity.
Defined.

(** ** Message ids *)

(** Within one send the two ids differ as long as the clock did not run
    backwards while the call was awaited. *)
Lemma ids_differ_within_a_turn (t : Turn) :
  now (t_sent t) <= now (t_settled t) ->
  id (userMessageOf t) <> id (replyMessageOf t).
Proof. unfold replyMessageOf. destruct (t_outcome t); cbn; lia. Qed.

(** C5. Ids are not unique across sends. The ai message of a send gets
    [Date.now() + 1]; a user message created in the following
    millisecond gets the same number.  The resulting list holds two
    different messages with one id. *)
Theorem ids_collide_across_sends :
  let ms := messages (appState (run (boot [] defaultPreferences)
                                    (sequentialSends promptFollowUp))) in
  exists reply followUp,
    ms !! 1%nat = Some reply /\ ms !! 2%nat = Some followUp /\
    sender reply = ai /\ sender followUp = user /\
    reply <> followUp /\
    id reply = 1762153200251 /\ id followUp = 1762153200251 /\
    ~ uniqueIds ms.
Proof.
  cbn. eexists _, _. split; [reflexivity|]. split; [reflexivity|].
  repeat split; try done.
  unfold uniqueIds. cbn. intros H.
  apply NoDup_cons in H as [_ H]. apply NoDup_cons in H as [H _].
  apply H. constructor.
Qed.

(** ** The location banner *)

Lemma bannerVisible_true_iff (s : AppState) :
  bannerVisible s = true <->
  (exists e, locationError s = Some e /\ containsSubstring "denied" e) /\
  isLocationBannerDismissed s = false.
Proof.
  unfold bannerVisible, showLocationBanner.
  destruct (locationError s) as [e|]; cbn.
  - destruct (includes "denied" e) eqn:Hinc; cbn.
    + rewrite negb_true_iff. split.
      * intros Hd. split; [|done]. exists e. split; [done|].
        by apply includes_true_iff.
      * by intros [_ Hd].
    + split; [done|]. intros [(e' & [= <-] & Hsub) _].
      apply includes_true_iff in Hsub. congruence.
  - split; [done|]. by intros [(e' & [=] & _) _].
Qed.

Lemma dismissed_hides_banner (s : AppState) :
  isLocationBannerDismissed s = true -> bannerVisible s = false.
Proof.
  unfold bannerVisible, showLocationBanner. intros ->.
  by destruct (optional_includes "denied" (locationError s)) as [[|]|].
Qed.

Lemma step_keeps_dismissed (sys : System) (e : Event) :
  isLocationBannerDismissed (appState sys) = true ->
  isLocationBannerDismissed (appState (step sys e)) = true.
Proof.
  destruct sys as [s fl].
  destruct e as [tx im c|i o c| | | |p| | |loc err]; cbn; try done.
  destruct (fl !! i); cbn; [|done]. by destruct o.
Qed.

Lemma run_keeps_dismissed (evs : list Event) (sys : System) :
  isLocationBannerDismissed (appState sys) = true ->
  isLocationBannerDismissed (appState (run sys evs)) = true.
Proof.
  revert sys. induction evs as [|e evs IH]; intros sys Hd; [done|].
  cbn [run foldl]. apply IH. by apply step_keeps_dismissed.
Qed.

Example denied_banner_is_shown :
  bannerVisible (locationSettled None (Some "Location access denied by user.")
                                 (mount [] defaultPreferences)) = true.
Proof. reflexivity. Qed.

Example unavailable_banner_is_hidden (dismissed expanded : bool) :
  bannerVisible
    (setIsLocationBannerDismissed dismissed
       (setShowLocationInstructions (fun _ => expanded)
          (locationSettled None (Some "Location unavailable.")
                           (mount [] defaultPreferences)))) = false.
Proof. by destruct dismissed. Qed.

Example dismissed_banner_stays_hidden_when_error_returns :
  bannerVisible
    (appState (run (boot [] defaultPreferences)
       [LocationSettled None (Some "Location access denied by user.");
        DismissBanner;
        LocationSettled None (Some "Location access denied by user.")])) = false.
Proof. reflexivity. Qed.

(** C6. The banner is rendered exactly when [locationError] is a string
    containing "denied" and the banner has not been dismissed; after the
    dismiss button was pressed no later event of the session, whatever
    [locationError] becomes, makes it visible again; and toggling the
    instructions leaves its visibility as it was. *)
Theorem banner_visibility :
  (forall s,
      bannerVisible s = true <->
      (exists e, locationError s = Some e /\ containsSubstring "denied" e) /\
      isLocationBannerDismissed s = false) /\
  (forall sys evs,
      isLocationBannerDismissed (appState (step sys DismissBanner)) = true /\
      bannerVisible (appState (run (step sys DismissBanner) evs)) = false) /\
  (forall sys,
      showLocationInstructions (appState (step sys ToggleInstructions)) =
        negb (showLocationInstructions (appState sys)) /\
      showLocationBanner (appState (step sys ToggleInstructions)) =
        showLocationBanner (appState sys)).
Proof.
  split; [apply bannerVisible_true_iff|]. split.
  - intros sys evs. split; [done|].
    apply dismissed_hides_banner, run_keeps_dismissed. done.
  - done.
Qed.

(** ** Images *)

Lemma step_keeps_aiWithoutImage (sys : System) (e : Event) :
  Forall aiWithoutImage (messages (appState sys)) ->
  Forall aiWithoutImage (messages (appState (step sys e))).
Proof.
  destruct sys as [s fl].
  destruct e as [tx im c|i o c| | | |p| | |loc err]; cbn; try done.
  - intros H. apply Forall_app. split; [done|]. by repeat constructor.
  - intros H. destruct (fl !! i); cbn; [|done].
    destruct o; cbn; (apply Forall_app; split; [done|]); by repeat constructor.
Qed.

Lemma run_keeps_aiWithoutImage (evs : list Event) (sys : System) :
  Forall aiWithoutImage (messages (appState sys)) ->
  Forall aiWithoutImage (messages (appState (run sys evs))).
Proof.
  revert sys. induction evs as [|e evs IH]; intros sys H; [done|].
  cbn [run foldl]. apply IH. by apply step_keeps_aiWithoutImage.
Qed.

(** C10. The message a settled call appends has sender ai and no
    image, on the success and on the failure path; the message a send
    appends has sender user and carries an image exactly when the image
    argument is a string (neither null nor undefined), namely that string.
    Hence, if no stored ai message has an image, no ai message in the list
    ever has one. *)
Theorem only_user_messages_carry_images :
  (forall o c s, exists m,
      messages (handleSend_settled o c s) = messages s ++ [m] /\
      sender m = ai /\ image m = None) /\
  (forall r text imageBase64 c s, exists m,
      messages (fst (handleSend_call r text imageBase64 c s)) = messages s ++ [m] /\
      sender m = user /\
      (forall b64, image m = Some b64 <-> imageBase64 = ImgString b64) /\
      (image m = None <-> imageBase64 = ImgNull \/ imageBase64 = ImgUndefined)) /\
  (forall storedHistory storedPrefs evs,
      Forall aiWithoutImage storedHistory ->
      Forall aiWithoutImage
             (messages (appState (run (boot storedHistory storedPrefs) evs)))).
Proof.
  split; [|split].
  - intros o c s. rewrite handleSend_settled_messages.
    eexists. split; [reflexivity|]. by destruct o.
  - intros r tx im c s. eexists. split; [reflexivity|]. cbn.
    split; [done|]. destruct im; cbn; split.
    + split; done.
    + split; [auto | by intros [|]].
    + split; done.
    + split; [auto | by intros [|]].
    + split; [by intros [= ->] | by intros [= ->]].
    + split; [done | by intros [|]].
  - intros hist prefs evs Hstored. by apply run_keeps_aiWithoutImage.
Qed.

Lemma only_user_messages_carry_images_witness :
  Forall aiWithoutImage sevenStored /\
  Forall aiWithoutImage
         (messages (appState (run (boot sevenStored defaultPreferences)
                                  (sequentialSends [photoTurn; helloTurn])))).
Proof.
  assert (Hstored : Forall aiWithoutImage sevenStored)
    by (repeat constructor).
  split; [exact Hstored|].
  exact (proj2 (proj2 only_user_messages_carry_images)
               sevenStored defaultPreferences
               (sequentialSends [photoTurn; helloTurn]) Hstored).
Defined.

Example photo_turn_messages :
  image <$> messages (appState (run (boot [] defaultPreferences)
                                    (sequentialSends [photoTurn; helloTurn])))
  = [Some "iVBORw0KGgo="; None; None; None].
Proof. reflexivity. Qed.

(** The empty string is a string: it is kept as the image. *)
Example empty_image_string_is_kept :
  nullish_to_undefined (ImgString "") = Some "".
Proof. reflexivity. Qed.

(** * Further properties of the handlers *)

(** ** How the list and the calls in flight evolve *)

Lemma step_accounting (sys : System) (e : Event) :
  isClearHistory e = false ->
  (exists added, messages (appState (step sys e)) = messages (appState sys) ++ added /\
                 (length added <= 1)%nat) /\
  (length (messages (appState (step sys e))) + length (inFlight (step sys e)) =
   length (messages (appState sys)) + length (inFlight sys)
   + 2 * (if isSend e then 1 else 0))%nat.
Proof.
  destruct sys as [s fl].
  destruct e as [tx im c|i o c| | | |p| | |loc err]; cbn; try done; intros _;
    try (split; [exists []; split; [by rewrite app_nil_r | cbn; lia] | lia]).
  - split; [eexists [_]; split; [done | cbn; lia] |].
    rewrite !length_app. cbn. lia.
  - destruct (fl !! i) as [call|] eqn:Hi; cbn.
    + apply lookup_lt_Some in Hi.
      split; [destruct o; (eexists [_]; split; [done | cbn; lia]) |].
      rewrite length_delete by (apply lookup_lt_is_Some_2; lia).
      destruct o; cbn; rewrite length_app; cbn; lia.
    + split; [exists []; split; [by rewrite app_nil_r | cbn; lia] | lia].
Qed.

(** X1. Unless the history is cleared, the list only grows at its end:
    after any events that include no clear, the earlier list is an
    initial segment of the later one. *)
Theorem messages_only_grow_without_clear (evs : list Event) (sys : System) :
  clearFree evs = true ->
  messages (appState sys) `prefix_of` messages (appState (run sys evs)).
Proof.
  revert sys. induction evs as [|e evs IH]; intros sys Hfree; [done|].
  cbn in Hfree. apply andb_true_iff in Hfree as [He Hfree].
  apply negb_true_iff in He. cbn [run foldl].
  destruct (step_accounting sys e He) as [(added & Hadded & _) _].
  etrans; [|apply IH; done]. rewrite Hadded. by apply prefix_app_r.
Qed.

Lemma messages_only_grow_without_clear_witness :
  messages (appState (step (boot sevenStored defaultPreferences) firstSend))
    `prefix_of`
  messages (appState (run (step (boot sevenStored defaultPreferences) firstSend)
                          [secondSend; lateSettle; DismissBanner; lateSettle])).
Proof.
  apply (messages_only_grow_without_clear
           [secondSend; lateSettle; DismissBanner; lateSettle]).
  reflexivity.
Defined.

(** X2. Every send is accounted for: as long as the history is not cleared,
    the messages in the list and the calls in flight together grow by
    exactly two per send, however sends and settlements interleave. *)
Theorem messages_and_calls_account_for_sends (evs : list Event) (sys : System) :
  clearFree evs = true ->
  (length (messages (appState (run sys evs))) + length (inFlight (run sys evs)) =
   length (messages (appState sys)) + length (inFlight sys)
   + 2 * countEvents isSend evs)%nat.
Proof.
  revert sys. induction evs as [|e evs IH]; intros sys Hfree; [cbn; lia|].
  cbn in Hfree. apply andb_true_iff in Hfree as [He Hfree].
  apply negb_true_iff in He. cbn [run foldl countEvents].
  rewrite (IH _ Hfree).
  destruct (step_accounting sys e He) as [_ Hstep]. rewrite Hstep.
  destruct (isSend e); lia.
Qed.

Lemma messages_and_calls_account_for_sends_witness :
  (length (messages (appState (run (boot [] defaultPreferences)
                                   [firstSend; secondSend; lateSettle])))
   + length (inFlight (run (boot [] defaultPreferences)
                           [firstSend; secondSend; lateSettle])) =
   length (messages (appState (boot [] defaultPreferences)))
   + length (inFlight (boot [] defaultPreferences))
   + 2 * countEvents isSend [firstSend; secondSend; lateSettle])%nat.
Proof.
  apply (messages_and_calls_account_for_sends [firstSend; secondSend; lateSettle]).
  reflexivity.
Defined.

(** X3. A call that settles after the history was cleared still appends
    its reply: the list then consists of that single ai message, with no
    user message before it. *)
Theorem reply_after_clear_is_orphaned
    (sys : System) (i : nat) (call : GatewayCall) (o : Outcome) (c : Clock) :
  inFlight sys !! i = Some call ->
  let after := run sys [ClearHistory; Settled i o c] in
  (exists reply,
      messages (appState after) = [reply] /\
      sender reply = ai /\ id reply = now c + 1) /\
  inFlight after = delete i (inFlight sys) /\
  ~ repliesFollowSends (messages (appState after)).
Proof.
  intros Hi. destruct sys as [s fl]. cbn in Hi. cbn. rewrite Hi. cbn.
  split; [destruct o; by eexists|]. split; [done|].
  intros H. specialize (H 1%nat). destruct o; cbn in H; lia.
Qed.

Lemma reply_after_clear_is_orphaned_witness :
  inFlight (step (boot sevenStored defaultPreferences) firstSend) !! 0%nat
    = Some (mkCall "first" ImgNull (slice_from_end 5 sevenStored) defaultPreferences None) /\
  length (messages (appState (run (step (boot sevenStored defaultPreferences) firstSend)
                                  [ClearHistory; lateSettle]))) = 1%nat.
Proof.
  split; [reflexivity|].
  destruct (reply_after_clear_is_orphaned
              (step (boot sevenStored defaultPreferences) firstSend) 0
              (mkCall "first" ImgNull (slice_from_end 5 sevenStored) defaultPreferences None)
              (Fulfilled "late reply")
              (clockAt 1762153200900 "2025-11-03T07:00:00.900Z") eq_refl)
    as [(reply & Hmsgs & _) _].
  exact (f_equal length Hmsgs).
Defined.

(** ** The loading flag *)

(** X4. With two or more calls in flight, the first one to settle lowers the
    loading flag although calls are still awaiting the gateway. *)
Theorem loading_flag_drops_with_calls_in_flight
    (sys : System) (i : nat) (call : GatewayCall) (o : Outcome) (c : Clock) :
  inFlight sys !! i = Some call ->
  (2 <= length (inFlight sys))%nat ->
  isLoading (appState (step sys (Settled i o c))) = false /\
  length (inFlight (step sys (Settled i o c))) = (length (inFlight sys) - 1)%nat /\
  inFlight (step sys (Settled i o c)) <> [].
Proof.
  intros Hi Htwo. destruct sys as [s fl]. cbn in *. rewrite Hi. cbn.
  assert (Hlen : length (delete i fl) = (length fl - 1)%nat).
  { apply lookup_lt_Some in Hi.
    rewrite length_delete by (apply lookup_lt_is_Some_2; lia). lia. }
  split; [by destruct o|]. split; [done|].
  intros Hnil. rewrite Hnil in Hlen. cbn in Hlen. lia.
Qed.

Lemma loading_flag_drops_with_calls_in_flight_witness :
  isLoading (appState (step (run (boot [] defaultPreferences) [firstSend; secondSend])
                            lateSettle)) = false /\
  inFlight (step (run (boot [] defaultPreferences) [firstSend; secondSend]) lateSettle)
    <> [].
Proof.
  destruct (loading_flag_drops_with_calls_in_flight
              (run (boot [] defaultPreferences) [firstSend; secondSend]) 0
              (mkCall "first" ImgNull [] defaultPreferences None)
              (Fulfilled "late reply")
              (clockAt 1762153200900 "2025-11-03T07:00:00.900Z"))
    as (Hflag & _ & Hcalls).
  - reflexivity.
  - cbn. lia.
  - split; [exact Hflag | exact Hcalls].
Defined.

(** X5. If sends are only made while the flag is false, the flag is accurate
    after every event since mounting: it is true exactly when a call is in
    flight, and then there is exactly one. *)
Theorem loading_flag_accurate_when_sends_wait
    (storedHistory : list Message) (storedPrefs : UserPreferences) (evs : list Event) :
  sendsOnlyWhenIdle (boot storedHistory storedPrefs) evs = true ->
  let sys := run (boot storedHistory storedPrefs) evs in
  (isLoading (appState sys) = true <-> exists call, inFlight sys = [call]) /\
  (isLoading (appState sys) = false <-> inFlight sys = []).
Proof.
  intros Hgated sys.
  assert (Htrack : loadingTracksInFlight sys)
    by (by apply run_keeps_tracking).
  unfold loadingTracksInFlight in Htrack.
  destruct (isLoading (appState sys)), (inFlight sys) as [|call [|call' rest]];
    cbn in Htrack; try lia; split; split; try done.
  - intros _. by exists call.
  - by intros [call Hcall].
Qed.

Lemma loading_flag_accurate_when_sends_wait_witness :
  sendsOnlyWhenIdle (boot [] defaultPreferences) [firstSend; lateSettle; secondSend] = true /\
  (isLoading (appState (run (boot [] defaultPreferences)
                            [firstSend; lateSettle; secondSend])) = true <->
   exists call, inFlight (run (boot [] defaultPreferences)
                              [firstSend; lateSettle; secondSend]) = [call]).
Proof.
  split; [reflexivity|].
  apply (loading_flag_accurate_when_sends_wait
           [] defaultPreferences [firstSend; lateSettle; secondSend]).
  reflexivity.
Defined.

(** ** The error field and its notice *)

(** X6. After a send and the settlement that follows it, the error field
    tells how that settlement went, whatever it held before: null after a
    fulfilled call, the failure notice after a rejected one.  A fulfilled
    settlement by itself leaves the field alone, so with overlapping
    calls a later success does not remove an earlier failure's notice. *)
Theorem error_field_reflects_last_turn :
  (forall sys t,
      error (appState (run sys (turnEvents t))) =
      match t_outcome t with
      | Fulfilled _ => None
      | Rejected err => Some ("Failed to get response from AI: " +:+ errorMessageOf err)
      end) /\
  (forall sys i aiResponseText c,
      error (appState (step sys (Settled i (Fulfilled aiResponseText) c))) =
      error (appState sys)).
Proof.
  split.
  - intros [s fl] [tx im c1 o c2]. cbn.
    destruct fl as [|call fl]; cbn; by destruct o.
  - intros [s fl] i tx c. cbn. by destruct (fl !! i).
Qed.

Lemma step_keeps_errorIsNotice (sys : System) (e : Event) :
  errorIsNotice (appState sys) -> errorIsNotice (appState (step sys e)).
Proof.
  unfold errorIsNotice. destruct sys as [s fl].
  destruct e as [tx im c|i o c| | | |p| | |loc err]; cbn; try done.
  - by left.
  - destruct (fl !! i); cbn; [|done].
    destruct o as [tx|err]; cbn; [done|]. intros _. right. by eexists.
Qed.

Lemma notice_text_is_truthy (errorMessage : string) :
  truthy_string (Some ("Failed to get response from AI: " +:+ errorMessage)) = true.
Proof. reflexivity. Qed.

(** X7. In every state reached after mounting, the error field is null or a
    notice "Failed to get response from AI: ..." built by [handleSend];
    such a notice is never the empty string, so the error notice is
    rendered exactly when the field is not null. *)
Theorem error_notice_shown_iff_error_set
    (storedHistory : list Message) (storedPrefs : UserPreferences) (evs : list Event) :
  let s := appState (run (boot storedHistory storedPrefs) evs) in
  errorIsNotice s /\
  (errorNoticeShown s = true <-> error s <> None).
Proof.
  assert (Hinv : forall evs sys, errorIsNotice (appState sys) ->
                                 errorIsNotice (appState (run sys evs))).
  { clear. induction evs as [|e evs IH]; intros sys H; [done|].
    cbn [run foldl]. apply IH. by apply step_keeps_errorIsNotice. }
  intros s.
  assert (Hs : errorIsNotice s) by (apply Hinv; by left).
  split; [done|]. unfold errorNoticeShown.
  destruct Hs as [->|[errorMessage ->]].
  - by split.
  - rewrite notice_text_is_truthy. by split.
Qed.

(** ** The two places a location error is shown *)

Lemma denied_text_is_truthy (e : string) :
  includes "denied" e = true -> truthy_string (Some e) = true.
Proof. by destruct e. Qed.

(** X8. The banner and the inline location notice are never rendered
    together.  A non-empty [locationError] is rendered in exactly one of
    them while the banner has not been dismissed; once it has, a message
    containing "denied" is rendered in neither, and any other non-empty
    message is still rendered inline. *)
Theorem location_error_is_shown_in_one_place (s : AppState) :
  bannerVisible s && locationNoticeShown s = false /\
  (forall e, locationError s = Some e -> e <> EmptyString ->
             isLocationBannerDismissed s = false ->
             xorb (bannerVisible s) (locationNoticeShown s) = true) /\
  (forall e, locationError s = Some e -> includes "denied" e = true ->
             isLocationBannerDismissed s = true ->
             bannerVisible s = false /\ locationNoticeShown s = false) /\
  (forall e, locationError s = Some e -> e <> EmptyString ->
             includes "denied" e = false ->
             bannerVisible s = false /\ locationNoticeShown s = true).
Proof.
  unfold bannerVisible, showLocationBanner, locationNoticeShown.
  destruct (locationError s) as [e|]; cbn; [|by repeat split].
  split; [|split; [|split]].
  - destruct (includes "denied" e), (isLocationBannerDismissed s);
      cbn; by rewrite ?andb_false_r.
  - intros e' [= <-] Hne ->. destruct (includes "denied" e) eqn:Hinc; cbn.
    + by rewrite andb_false_r.
    + destruct e; [done | reflexivity].
  - intros e' [= <-] Hinc ->. rewrite Hinc. cbn. by rewrite andb_false_r.
  - intros e' [= <-] Hne Hinc. rewrite Hinc. cbn.
    destruct e; [done | by split].
Qed.

Lemma location_error_is_shown_in_one_place_witness :
  let s := setIsLocationBannerDismissed true
             (locationSettled None (Some "Location access denied by user.")
                              (mount [] defaultPreferences)) in
  bannerVisible s = false /\ locationNoticeShown s = false.
Proof.
  apply (proj1 (proj2 (proj2 (location_error_is_shown_in_one_place _)))
               "Location access denied by user."); reflexivity.
Defined.

(** ** The instructions toggle *)

Lemma step_toggles_instructions (sys : System) (e : Event) :
  showLocationInstructions (appState (step sys e)) =
  xorb (showLocationInstructions (appState sys)) (isToggleInstructions e).
Proof.
  destruct sys as [s fl].
  destruct e as [tx im c|i o c| | | |p| | |loc err]; cbn;
    rewrite ?xorb_false_r, ?xorb_true_r; try done.
  destruct (fl !! i); cbn; [|done]. by destruct o.
Qed.

(** X9. Only the toggle button changes whether the instructions are
    expanded: after any events the flag is its earlier value flipped
    once per toggle, so sends, settlements, clearing, the settings and
    dismissing the banner all leave it alone.  The instructions are
    rendered only inside a visible banner, and the button reads "Hide
    Instructions" exactly when the flag is set. *)
Theorem instructions_flag_follows_toggles (evs : list Event) (sys : System) :
  showLocationInstructions (appState (run sys evs)) =
    xorb (showLocationInstructions (appState sys))
         (Nat.odd (countEvents isToggleInstructions evs)) /\
  (instructionsShown (appState (run sys evs)) = true ->
   bannerVisible (appState (run sys evs)) = true) /\
  (instructionsButtonLabel (appState (run sys evs)) = "Hide Instructions" <->
   showLocationInstructions (appState (run sys evs)) = true).
Proof.
  split; [|split].
  - revert sys. induction evs as [|e evs IH]; intros sys.
    + cbn. by rewrite xorb_false_r.
    + cbn [run foldl countEvents]. rewrite IH, step_toggles_instructions.
      destruct (isToggleInstructions e); cbn [Nat.add].
      * rewrite Nat.odd_succ, <- Nat.negb_odd.
        by destruct (showLocationInstructions _), (Nat.odd _).
      * by rewrite xorb_false_r.
  - unfold instructionsShown. by intros [? _]%andb_true_iff.
  - unfold instructionsButtonLabel.
    by destruct (showLocationInstructions _).
Qed.

Lemma instructions_flag_follows_toggles_witness :
  instructionsShown
    (appState (run (boot [] defaultPreferences)
                   [LocationSettled None (Some "Location access denied by user.");
                    ToggleInstructions])) = true /\
  bannerVisible
    (appState (run (boot [] defaultPreferences)
                   [LocationSettled None (Some "Location access denied by user.");
                    ToggleInstructions])) = true.
Proof.
  split; [reflexivity|].
  apply (proj1 (proj2 (instructions_flag_follows_toggles
                         [LocationSettled None (Some "Location access denied by user.");
                          ToggleInstructions]
                         (boot [] defaultPreferences)))).
  reflexivity.
Defined.

(** ** The settings modal and the preferences *)

Lemma run_keeps_settings_open (evs : list Event) (sys : System) :
  isSettingsOpen (appState sys) = true ->
  countEvents isCloseSettings evs = 0%nat ->
  isSettingsOpen (appState (run sys evs)) = true.
Proof.
  revert sys. induction evs as [|e evs IH]; intros [s fl] Hopen Hnone; [done|].
  cbn [run foldl]. cbn in Hnone. apply IH; [|destruct (isCloseSettings e); [done | lia]].
  destruct e as [tx im c|i o c| | | |p| | |loc err]; cbn in *; try done.
  destruct (fl !! i); cbn; [|done]. by destruct o.
Qed.

Lemma run_keeps_settings_closed (evs : list Event) (sys : System) :
  isSettingsOpen (appState sys) = false ->
  countEvents isOpenSettings evs = 0%nat ->
  isSettingsOpen (appState (run sys evs)) = false.
Proof.
  revert sys. induction evs as [|e evs IH]; intros [s fl] Hopen Hnone; [done|].
  cbn [run foldl]. cbn in Hnone. apply IH; [|destruct (isOpenSettings e); [done | lia]].
  destruct e as [tx im c|i o c| | | |p| | |loc err]; cbn in *; try done.
  destruct (fl !! i); cbn; [|done]. by destruct o.
Qed.

(** X10. Whether the settings modal is open is decided by the last press on
    one of its two buttons.  The header button only opens, so pressing it
    again keeps the modal open, and neither saving preferences nor any
    chat or banner event closes or opens it. *)
Theorem settings_modal_follows_last_button (sys : System) (earlier later : list Event) :
  (countEvents isCloseSettings later = 0%nat ->
   isSettingsOpen (appState (run sys (earlier ++ OpenSettings :: later))) = true) /\
  (countEvents isOpenSettings later = 0%nat ->
   isSettingsOpen (appState (run sys (earlier ++ CloseSettings :: later))) = false).
Proof.
  split; intros Hnone; rewrite run_app; cbn [run foldl].
  - by apply run_keeps_settings_open.
  - by apply run_keeps_settings_closed.
Qed.

Lemma settings_modal_follows_last_button_witness :
  countEvents isCloseSettings
    [OpenSettings; SavePreferences (mkPrefs "Ana" "terse"); firstSend; lateSettle] = 0%nat /\
  isSettingsOpen
    (appState (run (boot [] defaultPreferences)
                   ([CloseSettings] ++ OpenSettings ::
                      [OpenSettings; SavePreferences (mkPrefs "Ana" "terse");
                       firstSend; lateSettle]))) = true.
Proof.
  split; [reflexivity|].
  apply (proj1 (settings_modal_follows_last_button
                  (boot [] defaultPreferences) [CloseSettings]
                  [OpenSettings; SavePreferences (mkPrefs "Ana" "terse");
                   firstSend; lateSettle])).
  reflexivity.
Defined.

Lemma step_keeps_calls (sys : System) (e : Event) :
  isSettled e = false ->
  inFlight sys `prefix_of` inFlight (step sys e).
Proof.
  destruct sys as [s fl].
  destruct e as [tx im c|i o c| | | |p| | |loc err]; cbn; try done.
  intros _. by apply prefix_app_r.
Qed.

(** X11. A call in flight keeps the arguments it was issued with: no event
    other than a settlement alters or removes it, so preferences saved or
    a position obtained while the call is awaited do not reach it.  A
    send made after saving preferences carries the saved ones. *)
Theorem call_keeps_arguments_of_its_send (sys : System) :
  (forall evs, countEvents isSettled evs = 0%nat ->
               inFlight sys `prefix_of` inFlight (run sys evs)) /\
  (forall p text imageBase64 c,
      g_preferences <$> inFlight (run sys [Send text imageBase64 c; SavePreferences p])
        = (g_preferences <$> inFlight sys) ++ [preferences (appState sys)] /\
      g_preferences <$> inFlight (run sys [SavePreferences p; Send text imageBase64 c])
        = (g_preferences <$> inFlight sys) ++ [p]) /\
  (forall loc err text imageBase64 c,
      g_location <$> inFlight (run sys [Send text imageBase64 c; LocationSettled loc err])
        = (g_location <$> inFlight sys) ++ [location (appState sys)] /\
      g_location <$> inFlight (run sys [LocationSettled loc err; Send text imageBase64 c])
        = (g_location <$> inFlight sys) ++ [loc]).
Proof.
  split; [|split].
  - intros evs. revert sys. induction evs as [|e evs IH]; intros sys Hnone; [done|].
    cbn [run foldl]. cbn in Hnone.
    destruct (isSettled e) eqn:He; [done|].
    etrans; [by apply step_keeps_calls | by apply IH].
  - intros p tx im c. destruct sys as [s fl]. cbn. by rewrite !fmap_app.
  - intros loc err tx im c. destruct sys as [s fl]. cbn. by rewrite !fmap_app.
Qed.

Lemma call_keeps_arguments_of_its_send_witness :
  countEvents isSettled [SavePreferences (mkPrefs "Ana" "terse"); ClearHistory; secondSend]
    = 0%nat /\
  inFlight (step (boot [] defaultPreferences) firstSend)
    `prefix_of`
  inFlight (run (step (boot [] defaultPreferences) firstSend)
                [SavePreferences (mkPrefs "Ana" "terse"); ClearHistory; secondSend]).
Proof.
  split; [reflexivity|].
  apply (proj1 (call_keeps_arguments_of_its_send
                  (step (boot [] defaultPreferences) firstSend))).
  reflexivity.
Defined.

(** ** The context of later sends *)

Lemma slice_from_end_app_exact {A} (k : nat) (l1 l2 : list A) :
  length l2 = k -> slice_from_end k (l1 ++ l2) = l2.
Proof.
  intros <-. unfold slice_from_end. rewrite length_app.
  replace (length l1 + length l2 - length l2)%nat with (length l1) by lia.
  by rewrite drop_app_length.
Qed.

(** X12. Five is odd and a turn adds two messages: after three or more
    sequential turns the context of the next send starts in the middle
    of a turn.  It holds the reply of the third-last turn without the
    user message that prompted it, followed by the last two turns in
    full; error-flagged replies are part of it like any other. *)
Theorem context_after_three_turns
    (sys : System) (turns : list Turn) (t1 t2 t3 : Turn)
    (text : string) (imageBase64 : ImageArg) (c : Clock) :
  inFlight sys = [] ->
  g_recentHistory <$>
    inFlight (step (run sys (sequentialSends (turns ++ [t1; t2; t3])))
                   (Send text imageBase64 c))
  = [[replyMessageOf t1; userMessageOf t2; replyMessageOf t2;
      userMessageOf t3; replyMessageOf t3]].
Proof.
  intros Hidle.
  destruct (sequential_sends_append (turns ++ [t1; t2; t3]) sys Hidle) as [Hfl Hmsgs].
  destruct (run sys _) as [s fl]. cbn in *. subst fl. cbn.
  rewrite Hmsgs, map_app, concat_app. cbn.
  do 2 f_equal.
  change (userMessageOf t1 :: replyMessageOf t1 :: ?l)
    with ([userMessageOf t1] ++ replyMessageOf t1 :: l).
  rewrite !app_assoc. by apply slice_from_end_app_exact.
Qed.

Lemma context_after_three_turns_witness :
  inFlight (boot sevenStored defaultPreferences) = [] /\
  g_recentHistory <$>
    inFlight (step (run (boot sevenStored defaultPreferences)
                        (sequentialSends ([photoTurn] ++ [helloTurn; photoTurn; helloTurn])))
                   secondSend)
  = [[replyMessageOf helloTurn; userMessageOf photoTurn; replyMessageOf photoTurn;
      userMessageOf helloTurn; replyMessageOf helloTurn]].
Proof.
  split; [reflexivity|].
  apply (context_after_three_turns (boot sevenStored defaultPreferences)
           [photoTurn] helloTurn photoTurn helloTurn); reflexivity.
Defined.

(** ** When ids are unique *)

Lemma replyMessageOf_id (t : Turn) :
  id (replyMessageOf t) = now (t_settled t) + 1.
Proof. unfold replyMessageOf. by destruct (t_outcome t). Qed.

Lemma ids_increase_when_clocks_advance (turns : list Turn) (lo : Z) :
  clocksAdvance lo turns = true ->
  Forall (fun n => lo < n) (id <$> concat (map turnMessages turns)) /\
  NoDup (id <$> concat (map turnMessages turns)).
Proof.
  revert lo. induction turns as [|t turns IH]; intros lo Hadv.
  - split; [constructor | apply NoDup_nil_2].
  - cbn in Hadv.
    apply andb_true_iff in Hadv as [Hadv Hrest].
    apply andb_true_iff in Hadv as [Hlo Hturn].
    apply Z.ltb_lt in Hlo. apply Z.leb_le in Hturn.
    destruct (IH _ Hrest) as [Habove Hnodup].
    cbn [map concat turnMessages List.app fmap list_fmap].
    change (list_fmap _ _ id ?l) with (id <$> l).
    rewrite replyMessageOf_id. cbn [id userMessageOf].
    split.
    + repeat constructor; [lia.. |].
      eapply Forall_impl; [exact Habove|]. cbn. intros n Hn. lia.
    + apply NoDup_cons. split.
      * intros [Heq|Hin]%elem_of_cons; [lia|].
        rewrite Forall_forall in Habove. specialize (Habove _ Hin). lia.
      * apply NoDup_cons. split; [|done].
        intros Hin. rewrite Forall_forall in Habove.
        specialize (Habove _ Hin). lia.
Qed.

(** X13. Ids are unique as long as the clock keeps ahead of them: starting
    from an empty list, if no call settles at an earlier clock reading
    than it was sent at, and each send is made more than one millisecond
    after the previous call settled, then no two messages of the list
    share an id. *)
Theorem ids_unique_when_clocks_advance (sys : System) (turns : list Turn) (lo : Z) :
  inFlight sys = [] ->
  messages (appState sys) = [] ->
  clocksAdvance lo turns = true ->
  uniqueIds (messages (appState (run sys (sequentialSends turns)))).
Proof.
  intros Hidle Hempty Hadv.
  destruct (sequential_sends_append turns sys Hidle) as [_ ->].
  rewrite Hempty. cbn [List.app]. unfold uniqueIds.
  by destruct (ids_increase_when_clocks_advance turns lo Hadv).
Qed.

Lemma ids_unique_when_clocks_advance_witness :
  inFlight (boot [] defaultPreferences) = [] /\
  messages (appState (boot [] defaultPreferences)) = [] /\
  clocksAdvance 0 threeTurns = true /\
  uniqueIds (messages (appState (run (boot [] defaultPreferences)
                                     (sequentialSends threeTurns)))).
Proof.
  split; [reflexivity|]. split; [reflexivity|]. split; [reflexivity|].
  apply (ids_unique_when_clocks_advance (boot [] defaultPreferences) threeTurns 0);
    reflexivity.
Defined.

(** ** Replies come after their sends *)

Lemma countFrom_app (who : Sender) (l1 l2 : list Message) :
  countFrom who (l1 ++ l2) = (countFrom who l1 + countFrom who l2)%nat.
Proof. induction l1 as [|m l1 IH]; cbn; [done | rewrite IH; lia]. Qed.

Lemma repliesFollowSends_snoc (l : list Message) (m : Message) :
  repliesFollowSends l ->
  (countFrom ai (l ++ [m]) <= countFrom user (l ++ [m]))%nat ->
  repliesFollowSends (l ++ [m]).
Proof.
  intros Hl Hall k. destruct (decide (k <= length l)%nat) as [Hk|Hk].
  - rewrite take_app_le by done. apply Hl.
  - rewrite take_ge by (rewrite length_app; cbn; lia). done.
Qed.

Lemma step_keeps_repliesAccounted (sys : System) (e : Event) :
  isClearHistory e = false ->
  repliesAccounted sys -> repliesAccounted (step sys e).
Proof.
  unfold repliesAccounted. destruct sys as [s fl].
  destruct e as [tx im c|i o c| | | |p| | |loc err]; cbn; try done;
    intros _ [Hfollow Hcount].
  - rewrite !countFrom_app, length_app. cbn. split; [|lia].
    apply repliesFollowSends_snoc; [done|]. rewrite !countFrom_app. cbn. lia.
  - destruct (fl !! i) as [call|] eqn:Hi; cbn; [|done].
    apply lookup_lt_Some in Hi.
    rewrite length_delete by (apply lookup_lt_is_Some_2; lia).
    destruct o; cbn; rewrite !countFrom_app; cbn; (split; [|lia]);
      (apply repliesFollowSends_snoc; [done|]); rewrite !countFrom_app; cbn; lia.
Qed.

(** X14. From an empty list and without clearing, replies follow sends: in
    every initial segment of the list there are at least as many user
    messages as ai messages, however sends and settlements interleave,
    and the user messages outnumber the ai messages by exactly the number
    of calls in flight. *)
Theorem replies_follow_sends_without_clear
    (storedPrefs : UserPreferences) (evs : list Event) :
  clearFree evs = true ->
  let sys := run (boot [] storedPrefs) evs in
  repliesFollowSends (messages (appState sys)) /\
  countFrom user (messages (appState sys)) =
    (countFrom ai (messages (appState sys)) + length (inFlight sys))%nat.
Proof.
  intros Hfree sys. change (repliesAccounted sys). subst sys.
  assert (Hstart : repliesAccounted (boot [] storedPrefs)).
  { split; [|done]. intros k. by destruct k. }
  revert Hfree Hstart. generalize (boot [] storedPrefs) as sys.
  induction evs as [|e evs IH]; intros sys Hfree Hsys; [done|].
  cbn in Hfree. apply andb_true_iff in Hfree as [He Hfree].
  apply negb_true_iff in He. cbn [run foldl].
  apply IH; [done|]. by apply step_keeps_repliesAccounted.
Qed.

Lemma replies_follow_sends_without_clear_witness :
  clearFree [firstSend; secondSend; lateSettle; lateSettle] = true /\
  countFrom user (messages (appState (run (boot [] defaultPreferences)
                     [firstSend; secondSend; lateSettle; lateSettle]))) = 2%nat.
Proof.
  split; [reflexivity|].
  rewrite (proj2 (replies_follow_sends_without_clear defaultPreferences
                    [firstSend; secondSend; lateSettle; lateSettle] eq_refl)).
  reflexivity.
Defined.

(** ** Rejections *)

(** X15. The reply in the list and the notice above the input always name the
    same underlying message.  A thrown value that is not an [Error] is
    reported exactly like an [Error] whose message is "An unknown error
    occurred.", so the two cannot be told apart afterwards. *)
Theorem rejection_is_reported_consistently (c : Clock) (s : AppState) :
  (forall err, exists errorMessage reply,
      messages (handleSend_settled (Rejected err) c s) = messages s ++ [reply] /\
      text reply = "Sorry, I encountered an error. Please try again. ("
                     +:+ errorMessage +:+ ")" /\
      error (handleSend_settled (Rejected err) c s) =
        Some ("Failed to get response from AI: " +:+ errorMessage)) /\
  handleSend_settled (Rejected NotAnError) c s =
    handleSend_settled (Rejected (ErrorObject "An unknown error occurred.")) c s /\
  error (handleSend_settled (Rejected NotAnError) c s) =
    Some "Failed to get response from AI: An unknown error occurred.".
Proof.
  split; [|by split].
  intros err. exists (errorMessageOf err). by eexists.
Qed.

Lemma step_keeps_errorFlagIsReply (sys : System) (e : Event) :
  Forall errorFlagIsReply (messages (appState sys)) ->
  Forall errorFlagIsReply (messages (appState (step sys e))).
Proof.
  destruct sys as [s fl].
  destruct e as [tx im c|i o c| | | |p| | |loc err]; cbn; try done.
  - intros H. apply Forall_app. split; [done|]. repeat constructor.
  - intros H. destruct (fl !! i); cbn; [|done].
    destruct o as [tx|err]; cbn; (apply Forall_app; split; [done|]);
      (apply Forall_singleton).
    + by left.
    + right. repeat split. by exists (errorMessageOf err).
Qed.

(** X16. Error flags mark error replies and nothing else: if that holds of
    the stored history, then in every later state a message with an
    [isError] property has it set to true, was sent by ai, and its text is
    the apology wrapped around the underlying message.  User messages and
    successful replies never carry the flag. *)
Theorem error_flags_mark_error_replies
    (storedHistory : list Message) (storedPrefs : UserPreferences) (evs : list Event) :
  Forall errorFlagIsReply storedHistory ->
  Forall errorFlagIsReply
         (messages (appState (run (boot storedHistory storedPrefs) evs))).
Proof.
  intros Hstored.
  assert (Hstart : Forall errorFlagIsReply
                          (messages (appState (boot storedHistory storedPrefs))))
    by done.
  revert Hstart. generalize (boot storedHistory storedPrefs) as sys. clear Hstored.
  induction evs as [|e evs IH]; intros sys Hsys; [done|].
  cbn [run foldl]. apply IH. by apply step_keeps_errorFlagIsReply.
Qed.

Lemma error_flags_mark_error_replies_witness :
  Forall errorFlagIsReply sevenStored /\
  Forall errorFlagIsReply
         (messages (appState (run (boot sevenStored defaultPreferences)
                                  (sequentialSends [helloTurn; photoTurn])))).
Proof.
  assert (Hstored : Forall errorFlagIsReply sevenStored)
    by (repeat constructor).
  split; [exact Hstored|].
  exact (error_flags_mark_error_replies sevenStored defaultPreferences
           (sequentialSends [helloTurn; photoTurn]) Hstored).
Defined.
